(** * aiohttp_jinja2.helpers: the template helpers [url_for] and [static_url]

    A shallow embedding of [src/aiohttp_jinja2/helpers.py].  Python values are
    a small inductive type that keeps the class of a value next to its
    payload, dicts that are iterated are insertion-ordered association lists,
    dicts that are only built and handed on are [gmap]s, and the two helpers
    run in a state-and-exception monad over the objects they can reach: the
    template context (with the application and its configuration) and the
    log of emitted warnings. *)

From stdpp Require Import base option list strings pretty gmap fin_maps.
From Stdlib Require Import ZArith Ascii.

Set Default Proof Using "Type".
Open Scope string_scope.

(** ** Python values *)

Module Py.

(** The classes the helpers can tell apart.  [Tuser name base] is a class
    declared as [class name(base)]. *)
Inductive pytype :=
| Tobject
| Tstr
| Tint
| Tbool
| TNoneType
| Tuser (name : string) (base : pytype).

#[global] Instance pytype_eq_dec : EqDecision pytype.
Proof. solve_decision. Defined.

(** An instance of [str], as [str()] returns one: of [str] itself
    ([sv_class = None]) or of a subclass of it, with the text it holds. *)
Record strval := { sv_class : option string; sv_text : string }.

(** The plain [str] with a given text. *)
Definition plain (s : string) : strval := {| sv_class := None; sv_text := s |}.

(** A value with its class.  An instance of a subclass of [str] carries the
    text it holds and, when its class overrides [__str__], that method.  The
    method is taken to be pure and to return an instance of [str], as the
    data model asks of it; the instance need not be a plain [str].
    Subclasses of [int] other than [bool] keep [int.__str__]. *)
Inductive pyval :=
| PyStr (s : string)
| PyStrSub (cls : string) (dunder_str : option (string → strval)) (s : string)
| PyInt (n : Z)
| PyBool (b : bool)
| PyIntSub (cls : string) (n : Z)
| PyNone.

(** [type(val)] *)
Definition type_of (val : pyval) : pytype :=
  match val with
  | PyStr _ => Tstr
  | PyStrSub cls _ _ => Tuser cls Tstr
  | PyInt _ => Tint
  | PyBool _ => Tbool
  | PyIntSub cls _ => Tuser cls Tint
  | PyNone => TNoneType
  end.

(** [cls.__mro__] (single inheritance; [bool] derives from [int]). *)
Fixpoint mro (cls : pytype) : list pytype :=
  match cls with
  | Tobject => [Tobject]
  | Tstr => [Tstr; Tobject]
  | Tint => [Tint; Tobject]
  | Tbool => [Tbool; Tint; Tobject]
  | TNoneType => [TNoneType; Tobject]
  | Tuser _ base => cls :: mro base
  end.

(** [isinstance(val, cls)] *)
Definition isinstance (val : pyval) (cls : pytype) : bool :=
  bool_decide (cls ∈ mro (type_of val)).

(** [type(val) is cls] *)
Definition type_is (val : pyval) (cls : pytype) : bool :=
  bool_decide (type_of val = cls).

(** [str(val)]: the [__str__] found first along the MRO, applied to the
    value.  [str.__str__] and [int.__str__] give a plain [str]; what an
    overriding [__str__] returns is returned as it is. *)
Definition str (val : pyval) : strval :=
  match val with
  | PyStr s => plain s
  | PyStrSub _ None s => plain s
  | PyStrSub _ (Some method) s => method s
  | PyInt n => plain (pretty n)
  | PyBool true => plain "True"
  | PyBool false => plain "False"
  | PyIntSub _ n => plain (pretty n)
  | PyNone => plain "None"
  end.

(** [type(v) is str] for a result of [str()]. *)
Definition is_plain (v : strval) : bool :=
  match sv_class v with
  | None => true
  | Some _ => false
  end.

(** The text an instance of [str] (or of a subclass) holds: what [==]
    between strings compares. *)
Definition text (val : pyval) : option string :=
  match val with
  | PyStr s | PyStrSub _ _ s => Some s
  | _ => None
  end.

(** [v == val] for a result [v] of [str()] on the left. *)
Definition str_eq (v : strval) (val : pyval) : bool :=
  match text val with
  | Some s => bool_decide (sv_text v = s)
  | None => false
  end.

(** A class that does not define [__str__] of its own. *)
Definition keeps_str (val : pyval) : bool :=
  match val with
  | PyStrSub _ (Some _) _ => false
  | _ => true
  end.

(** *** Strings: [str.lstrip(chars)] and [str.rstrip(chars)] *)

Fixpoint char_in (c : ascii) (chars : string) : bool :=
  match chars with
  | EmptyString => false
  | String d rest => bool_decide (c = d) || char_in c rest
  end.

Fixpoint lstrip (chars s : string) : string :=
  match s with
  | EmptyString => EmptyString
  | String c rest => if char_in c chars then lstrip chars rest else s
  end.

Fixpoint rstrip (chars s : string) : string :=
  match s with
  | EmptyString => EmptyString
  | String c rest =>
      match rstrip chars rest with
      | EmptyString => if char_in c chars then EmptyString else String c EmptyString
      | kept => String c kept
      end
  end.

(** *** Dicts that are iterated: insertion order, first binding wins *)

Definition dict (A : Type) : Type := list (string * A).

Definition keys {A} (d : dict A) : list string := d.*1.

Fixpoint getitem {A} (d : dict A) (key : string) : option A :=
  match d with
  | [] => None
  | (k, v) :: rest => if decide (k = key) then Some v else getitem rest key
  end.

(** Truth value of an [Optional[Dict]]: [None] and the empty dict are
    false. *)
Definition truthy {A} (d : option (dict A)) : bool :=
  match d with
  | None | Some [] => false
  | Some (_ :: _) => true
  end.

End Py.

Import Py.

(** ** Exceptions, warnings and the objects the helpers reach *)

(** An exception is an instance of a class with its arguments.  The message
    of the helper's own [raise TypeError(...)] is formatted from the key,
    [type(val)] and [val]: [Rejected key val] stands for it.  The argument of
    a [KeyError] is the key of the failed subscript. *)
Inductive exn_class :=
| cls_TypeError
| cls_KeyError
| cls_RuntimeError
| cls_other (name : string).

#[global] Instance exn_class_eq_dec : EqDecision exn_class.
Proof. solve_decision. Defined.

Inductive exn_args :=
| Rejected (key : string) (val : pyval)
| Key (key : string)
| Message (msg : string).

Record exn := Exn { exn_class_of : exn_class; exn_args_of : exn_args }.

(** [TypeError("argument value should be str or int, got ...")] of
    [url_for], [KeyError(key)] and [RuntimeError(msg)]. *)
Abbreviation TypeError key val := (Exn cls_TypeError (Rejected key val)).
Abbreviation KeyError key := (Exn cls_KeyError (Key key)).
Abbreviation RuntimeError msg := (Exn cls_RuntimeError (Message msg)).

(** [isinstance(e, cls)] for an exception (no subclasses among the classes
    above). *)
Definition is_a (e : exn) (cls : exn_class) : bool :=
  bool_decide (exn_class_of e = cls).

Inductive outcome (A : Type) :=
| Returned (a : A)
| Raised (e : exn).
Arguments Returned {A} a.
Arguments Raised {A} e.

Inductive category := DeprecationWarning.

Record warning := { w_message : string; w_category : category; w_stacklevel : nat }.

(** Keys of [web.Application]: an [AppKey] object or a plain string. *)
Inductive app_key :=
| AppKey (name : string)
| StrKey (name : string).

#[global] Instance app_key_eq_dec : EqDecision app_key.
Proof. solve_decision. Defined.

#[global] Instance app_key_countable : Countable app_key.
Proof.
  refine (inj_countable'
            (λ k, match k with AppKey n => inl n | StrKey n => inr n end)
            (λ s, match s with inl n => AppKey n | inr n => StrKey n end) _).
  by intros [].
Defined.

(** [static_root_key = web.AppKey("static_root_key", str)] *)
Definition static_root_key : app_key := AppKey "static_root_key".

Section Helpers.

(** [yarl.URL] and its [with_query] belong to another package: they are
    parameters of the development. *)
Variable URL : Type.
Variable with_query : URL → dict string → URL.

(** A named resource of the router: its [url_for], called with the cleaned
    parts as keyword arguments, gives a URL or raises an exception of its
    own choosing. *)
Definition Resource : Type := gmap string strval → outcome URL.

(** [web.Application]: the configuration mapping ([app[key]], whose values
    under the two keys read here are strings) and the router
    ([app.router[name]]). *)
Record Application := {
  app_config : gmap app_key string;
  app_router : gmap string Resource;
}.

(** [class _Context(TypedDict, total=False)]: the key [app] may be
    missing. *)
Record _Context := { ctx_app : option Application }.

(** Everything a helper could touch: the context object it is handed and
    the warnings emitted so far (most recent first). *)
Record World := {
  w_context : _Context;
  w_warnings : list warning;
}.

(** *** The monad of a helper's body *)

Definition M (A : Type) : Type := World → outcome A * World.

Definition ret {A} (a : A) : M A := λ w, (Returned a, w).

Definition raise {A} (e : exn) : M A := λ w, (Raised e, w).

Definition bind {A B} (m : M A) (k : A → M B) : M B :=
  λ w, match m w with
       | (Returned a, w') => k a w'
       | (Raised e, w') => (Raised e, w')
       end.

(** [try: m except KeyError: handler] *)
Definition try_except_KeyError {A} (m : M A) (handler : M A) : M A :=
  λ w, match m w with
       | (Raised e, w') => if is_a e cls_KeyError then handler w' else (Raised e, w')
       | r => r
       end.

#[global] Instance M_ret : MRet M := @ret.
#[global] Instance M_bind : MBind M := λ A B k m, bind m k.

(** [context["app"]] *)
Definition context_app : M Application :=
  λ w, match ctx_app (w_context w) with
       | Some app => (Returned app, w)
       | None => (Raised (KeyError "app"), w)
       end.

(** [app[key]] *)
Definition app_getitem (app : Application) (key : app_key) : M string :=
  match app_config app !! key with
  | Some v => ret v
  | None => raise (KeyError (match key with AppKey n | StrKey n => n end))
  end.

(** [app.router[name]] *)
Definition router_getitem (app : Application) (name : string) : M Resource :=
  match app_router app !! name with
  | Some r => ret r
  | None => raise (KeyError name)
  end.

(** [resource.url_for] applied to the keyword arguments [parts_clean]: what
    it raises is the helper's to propagate. *)
Definition resource_url_for (r : Resource) (parts_clean : gmap string strval) : M URL :=
  match r parts_clean with
  | Returned url => ret url
  | Raised e => raise e
  end.

(** [warnings.warn(message, category=..., stacklevel=...)] *)
Definition warn (message : string) (cat : category) (stacklevel : nat) : M unit :=
  λ w, (Returned tt,
        {| w_context := w_context w;
           w_warnings := {| w_message := message; w_category := cat;
                            w_stacklevel := stacklevel |} :: w_warnings w |}).

(** *** [url_for] *)

(** The loop [for key in parts: ...] over the keys still to visit, with
    [parts_clean] as built so far. *)
Fixpoint clean_loop (parts : dict pyval) (todo : list string)
    (parts_clean : gmap string strval) : outcome (gmap string strval) :=
  match todo with
  | [] => Returned parts_clean
  | key :: todo' =>
      match getitem parts key with
      | None => Raised (KeyError key)
      | Some val =>
          if isinstance val Tstr then
            clean_loop parts todo' (<[key := str val]> parts_clean)
          else if type_is val Tint then
            clean_loop parts todo' (<[key := str val]> parts_clean)
          else Raised (TypeError key val)
      end
  end.

Definition clean (parts : dict pyval) : M (gmap string strval) :=
  λ w, (clean_loop parts (keys parts) ∅, w).

Definition url_for (route_name : string) (query_ : option (dict string))
    (parts : dict pyval) : M URL :=
  app ← context_app;
  parts_clean ← clean parts;
  resource ← router_getitem app route_name;
  url ← resource_url_for resource parts_clean;
  if truthy query_ then ret (with_query url (default [] query_)) else ret url.

(** *** [static_url] *)

Definition static_url (static_file_path : string) : M string :=
  app ← context_app;
  static_url ←
    try_except_KeyError (app_getitem app static_root_key)
      (static_url ←
         try_except_KeyError (app_getitem app (StrKey "static_root_url"))
           (raise (RuntimeError
              ("app does not define a static root url, you need to set the url root "
               +:+ "with app[aiohttp_jinja2.static_root_key] = '<static root>'.")));
       _ ← warn "'static_root_url' is deprecated, use aiohttp_jinja2.static_root_key."
             DeprecationWarning 2;
       ret static_url);
  ret (rstrip "/" static_url +:+ "/" +:+ lstrip "/" static_file_path).

End Helpers.

Arguments Application : clear implicits.
Arguments World : clear implicits.
Arguments M : clear implicits.
Arguments app_config {URL} _.
Arguments app_router {URL} _.
Arguments ctx_app {URL} _.
Arguments w_context {URL} _.
Arguments w_warnings {URL} _.
Arguments url_for {URL} with_query route_name query_ parts _.
Arguments static_url {URL} static_file_path _.

(** ** Vocabulary of the properties *)

(** The parameter map [url_for] has built when its loop ends. *)
Definition parts_clean_of (parts : dict pyval) : outcome (gmap string strval) :=
  clean_loop parts (keys parts) ∅.

(** A value the loop lets through: an instance of [str], or a value whose
    type is exactly [int]. *)
Definition accepted (val : pyval) : bool :=
  isinstance val Tstr || type_is val Tint.

(** A value whose type is a proper subclass of [cls]. *)
Definition proper_instance (val : pyval) (cls : pytype) : bool :=
  isinstance val cls && negb (type_is val cls).

Fixpoint slashes (n : nat) : string :=
  match n with
  | O => ""
  | S n' => String "/" (slashes n')
  end.

Definition starts_with_slash (s : string) : bool :=
  match s with
  | String c _ => bool_decide (c = "/"%char)
  | EmptyString => false
  end.

Fixpoint ends_with_slash (s : string) : bool :=
  match s with
  | EmptyString => false
  | String c EmptyString => bool_decide (c = "/"%char)
  | String _ rest => ends_with_slash rest
  end.

Definition legacy_key : app_key := StrKey "static_root_url".

Definition deprecation : warning :=
  {| w_message := "'static_root_url' is deprecated, use aiohttp_jinja2.static_root_key.";
     w_category := DeprecationWarning;
     w_stacklevel := 2 |}.

Definition no_static_root : string :=
  "app does not define a static root url, you need to set the url root "
  +:+ "with app[aiohttp_jinja2.static_root_key] = '<static root>'.".

(** The keyword arguments with every value already turned into a plain
    str by the caller: the plain str with the text of [str(val)]. *)
Definition stringified (parts : dict pyval) : dict pyval :=
  prod_map id (λ val, PyStr (sv_text (str val))) <$> parts.

(** ** A concrete application, for the examples

    URLs as a path and a query; [with_query] sets the query, as
    [yarl.URL.with_query] does.  The router knows the two routes of the
    docstring of [url_for]. *)
Module Sample.

Record url := { path : string; query : dict string }.

Definition with_query (u : url) (q : dict string) : url :=
  {| path := path u; query := q |}.

(** A plain route: its [url_for] takes no keyword argument, and Python
    raises a [TypeError] when it is given one. *)
Definition the_view : gmap string strval → outcome url :=
  λ parts,
    match map_to_list parts with
    | [] => Returned {| path := "/path/to/view"; query := [] |}
    | (key, _) :: _ =>
        Raised (Exn cls_TypeError
                  (Message ("url_for() got an unexpected keyword argument '"
                            +:+ key +:+ "'")))
    end.

(** A route with the part [id]: its [url_for] formats the path from the
    keyword arguments, and a missing part is a [KeyError]. *)
Definition item_details : gmap string strval → outcome url :=
  λ parts,
    match parts !! "id" with
    | Some id => Returned {| path := "/items/" +:+ sv_text id; query := [] |}
    | None => Raised (KeyError "id")
    end.

Definition router : gmap string (gmap string strval → outcome url) :=
  <["item-details" := item_details]> (<["the-view-name" := the_view]> ∅).

Definition app_with (config : gmap app_key string) : Application url :=
  {| app_config := config; app_router := router |}.

Definition world_of (app : Application url) : World url :=
  {| w_context := {| ctx_app := Some app |}; w_warnings := [] |}.

Definition current : World url :=
  world_of (app_with (<[static_root_key := "/static/"]> ∅)).

Definition legacy : World url :=
  world_of (app_with (<[legacy_key := "http://mycdn.example.com//"]> ∅)).

Definition unconfigured : World url := world_of (app_with ∅).

(** [class Color(str)] with [__str__] returning the member's name. *)
Definition Color_RED : pyval :=
  PyStrSub "Color" (Some (λ _, plain "Color.RED")) "red".

(** [class Tag(str)] with [__str__] returning [self]. *)
Definition Tag_a : pyval :=
  PyStrSub "Tag" (Some (λ s, {| sv_class := Some "Tag"; sv_text := s |})) "a".

(** [class Markup(str)], which keeps [str.__str__]. *)
Definition Markup_7 : pyval := PyStrSub "Markup" None "7".

End Sample.

(** ** Running the helpers on the sample application *)

Example url_for_the_view :
  (url_for Sample.with_query "the-view-name" None [] Sample.current).1
  = Returned {| Sample.path := "/path/to/view"; Sample.query := [] |}.
Proof. vm_compute. reflexivity. Qed.

Example url_for_item_details :
  (url_for Sample.with_query "item-details" (Some [("active", "true")])
     [("id", PyInt 123)] Sample.current).1
  = Returned {| Sample.path := "/items/123"; Sample.query := [("active", "true")] |}.
Proof. vm_compute. reflexivity. Qed.

Example url_for_negative_id :
  (url_for Sample.with_query "item-details" None [("id", PyInt (-5))] Sample.current).1
  = Returned {| Sample.path := "/items/-5"; Sample.query := [] |}.
Proof. vm_compute. reflexivity. Qed.

Example url_for_bool :
  (url_for Sample.with_query "item-details" None [("id", PyBool true)] Sample.current).1
  = Raised (TypeError "id" (PyBool true)).
Proof. vm_compute. reflexivity. Qed.

Example url_for_unknown_route :
  (url_for Sample.with_query "nowhere" None [] Sample.current).1
  = Raised (KeyError "nowhere").
Proof. vm_compute. reflexivity. Qed.

Example static_url_styles :
  (static_url "styles.css" Sample.current).1 = Returned "/static/styles.css".
Proof. vm_compute. reflexivity. Qed.

Example static_url_legacy :
  static_url "//img/logo.png" Sample.legacy
  = (Returned "http://mycdn.example.com/img/logo.png",
     {| w_context := w_context Sample.legacy; w_warnings := [deprecation] |}).
Proof. vm_compute. reflexivity. Qed.

Example static_url_unconfigured :
  (static_url "styles.css" Sample.unconfigured).1 = Raised (RuntimeError no_static_root).
Proof. vm_compute. reflexivity. Qed.

(** ** Stripping slashes *)

Lemma char_in_slash (c : ascii) : char_in c "/" = bool_decide (c = "/"%char).
Proof. simpl. by rewrite orb_false_r. Qed.

Lemma lstrip_slashes (s : string) :
  ∃ m, s = slashes m +:+ lstrip "/" s ∧ starts_with_slash (lstrip "/" s) = false.
Proof.
  induction s as [|c s IH].
  - exists 0. split; reflexivity.
  - cbn [lstrip]. rewrite char_in_slash. case_bool_decide as Hc.
    + destruct IH as (m & Heq & Hno). exists (S m). subst c.
      split; [exact (f_equal (String "/") Heq) | done].
    + exists 0. split; [done |]. simpl. by rewrite bool_decide_eq_false.
Qed.

Lemma rstrip_cons (c : ascii) (s : string) :
  rstrip "/" (String c s)
  = if decide (rstrip "/" s = "" ∧ c = "/"%char) then "" else String c (rstrip "/" s).
Proof.
  cbn [rstrip]. rewrite char_in_slash.
  destruct (rstrip "/" s) as [|d kept].
  - case_bool_decide as Hc; [by rewrite decide_True |].
    rewrite decide_False; [done | by intros [_ ?]].
  - rewrite decide_False; [done | by intros [? _]].
Qed.

Lemma slashes_snoc (n : nat) : slashes n +:+ "/" = slashes (S n).
Proof. induction n as [|n IH]; [done |]. exact (f_equal (String "/") IH). Qed.

Lemma rstrip_slashes (s : string) :
  ∃ n, s = rstrip "/" s +:+ slashes n ∧ ends_with_slash (rstrip "/" s) = false.
Proof.
  induction s as [|c s (n & Heq & Hno)].
  - exists 0. split; reflexivity.
  - rewrite rstrip_cons. case_decide as Hd.
    + destruct Hd as [Hr ->]. rewrite Hr in Heq.
      exists (S n). split; [exact (f_equal (String "/") Heq) | done].
    + exists n. split; [exact (f_equal (String c) Heq) |].
      destruct (rstrip "/" s) eqn:Hr; [| done].
      simpl. apply bool_decide_eq_false. naive_solver.
Qed.

(** ** The loop over the keyword arguments *)

Lemma getitem_Some_keys {A} (d : dict A) (key : string) (v : A) :
  getitem d key = Some v → key ∈ keys d.
Proof.
  induction d as [|[k x] d IH]; [done |]. simpl. case_decide as Hk.
  - subst. intros _. unfold keys. simpl. left.
  - intros H. unfold keys. simpl. right. by apply IH.
Qed.

Lemma keys_getitem {A} (d : dict A) (key : string) :
  key ∈ keys d → is_Some (getitem d key).
Proof.
  induction d as [|[k x] d IH]; unfold keys; simpl.
  - by intros ?%elem_of_nil.
  - intros Hin. case_decide as Hk; [by eexists |].
    apply IH. apply elem_of_cons in Hin as [->|Hin]; done.
Qed.

Lemma accepted_branches (val : pyval) :
  accepted val = false ↔ isinstance val Tstr = false ∧ type_is val Tint = false.
Proof. unfold accepted. apply orb_false_iff. Qed.

Lemma clean_loop_step (parts : dict pyval) (key : string) (todo : list string)
    (acc : gmap string strval) :
  clean_loop parts (key :: todo) acc
  = match getitem parts key with
    | None => Raised (KeyError key)
    | Some val =>
        if accepted val then clean_loop parts todo (<[key := str val]> acc)
        else Raised (TypeError key val)
    end.
Proof.
  cbn [clean_loop]. destruct (getitem parts key) as [val|]; [| done].
  unfold accepted. by destruct (isinstance val Tstr), (type_is val Tint).
Qed.

(** When every key to visit holds an accepted value the loop ends normally,
    and the map it leaves binds each visited key to the string form of its
    value and is otherwise as it was. *)
Lemma clean_loop_returns (parts : dict pyval) (todo : list string)
    (acc : gmap string strval) :
  (∀ key, key ∈ todo → ∃ val, getitem parts key = Some val ∧ accepted val = true) →
  ∃ pc, clean_loop parts todo acc = Returned pc
        ∧ ∀ key, pc !! key = if decide (key ∈ todo)
                             then str <$> getitem parts key else acc !! key.
Proof.
  revert acc. induction todo as [|k todo IH]; intros acc Hall.
  - exists acc. split; [done |]. intros key. case_decide as Hin; [| done].
    by apply elem_of_nil in Hin.
  - destruct (Hall k) as (val & Hget & Hacc); [left |].
    rewrite clean_loop_step, Hget, Hacc.
    destruct (IH (<[k := str val]> acc)) as (pc & Hrun & Hpc).
    { intros key Hin. apply Hall. by right. }
    exists pc. split; [done |]. intros key. rewrite Hpc.
    destruct (decide (key ∈ todo)) as [Hin|Hnin].
    + rewrite decide_True; [done | by right].
    + destruct (decide (key = k)) as [->|Hne].
      * rewrite decide_True by left. by rewrite lookup_insert_eq, Hget.
      * rewrite lookup_insert_ne by done. rewrite decide_False; [done |].
        intros [?|?]%elem_of_cons; done.
Qed.

(** What the loop can raise: the helper's [TypeError], at a visited key whose
    value is not accepted. *)
Lemma clean_loop_raises (parts : dict pyval) (todo : list string)
    (acc : gmap string strval) (e : exn) :
  todo ⊆ keys parts →
  clean_loop parts todo acc = Raised e →
  ∃ key val, e = TypeError key val ∧ key ∈ todo
             ∧ getitem parts key = Some val ∧ accepted val = false.
Proof.
  revert acc. induction todo as [|k todo IH]; intros acc Hsub; [done |].
  rewrite clean_loop_step.
  destruct (keys_getitem parts k) as [val Hget]; [apply Hsub; left |].
  rewrite Hget. destruct (accepted val) eqn:Hacc.
  - intros Hrun. destruct (IH _ ltac:(set_solver) Hrun) as (key & v & ? & ? & ? & ?).
    exists key, v. repeat split; try done. by right.
  - intros [= <-]. exists k, val. repeat split; try done. left.
Qed.

(** A normal end means every visited key held an accepted value. *)
Lemma clean_loop_returned_inv (parts : dict pyval) (todo : list string)
    (acc pc : gmap string strval) :
  clean_loop parts todo acc = Returned pc →
  ∀ key, key ∈ todo → ∃ val, getitem parts key = Some val ∧ accepted val = true.
Proof.
  revert acc. induction todo as [|k todo IH]; intros acc Hrun key Hin.
  - by apply elem_of_nil in Hin.
  - rewrite clean_loop_step in Hrun.
    destruct (getitem parts k) as [val|] eqn:Hget; [| done].
    destruct (accepted val) eqn:Hacc; [| done].
    apply elem_of_cons in Hin as [->|Hin]; [eauto | by eapply IH].
Qed.

(** ** The helpers, step by step *)

(** Unfold the monad under a helper's body. *)
Ltac unfold_monad :=
  unfold mbind, mret, M_bind, M_ret, bind, ret, raise, try_except_KeyError,
    context_app, app_getitem, router_getitem, resource_url_for, warn, clean.

Section Properties.

Variable URL : Type.
Variable with_query : URL → dict string → URL.

Implicit Types (w : World URL) (app : Application URL).
Implicit Types (parts : dict pyval) (query : option (dict string)).
Implicit Types (name key path root : string) (val : pyval).

(** The URL of a static file under a root. *)
Local Abbreviation joined root path := (rstrip "/" root +:+ "/" +:+ lstrip "/" path).

Lemma url_for_no_app w name query parts :
  ctx_app (w_context w) = None →
  url_for with_query name query parts w = (Raised (KeyError "app"), w).
Proof.
  intros Happ. unfold url_for. unfold_monad. by rewrite Happ.
Qed.

Lemma url_for_run w app name query parts :
  ctx_app (w_context w) = Some app →
  url_for with_query name query parts w
  = (match parts_clean_of parts with
     | Raised e => Raised e
     | Returned pc =>
         match app_router app !! name with
         | None => Raised (KeyError name)
         | Some resource =>
             match resource pc with
             | Raised e => Raised e
             | Returned url =>
                 Returned (if truthy query
                           then with_query url (default [] query) else url)
             end
         end
     end, w).
Proof.
  intros Happ.
  unfold url_for, parts_clean_of. unfold_monad. rewrite Happ.
  destruct (clean_loop parts (keys parts) ∅) as [pc|e]; [| reflexivity].
  destruct (app_router app !! name) as [resource|]; [simpl | reflexivity].
  destruct (resource pc) as [url|e]; [| reflexivity].
  destruct (truthy query); reflexivity.
Qed.

Lemma static_url_run w app path :
  ctx_app (w_context w) = Some app →
  static_url path w
  = match app_config app !! static_root_key with
    | Some root => (Returned (joined root path), w)
    | None =>
        match app_config app !! legacy_key with
        | Some root =>
            (Returned (joined root path),
             {| w_context := w_context w;
                w_warnings := deprecation :: w_warnings w |})
        | None => (Raised (RuntimeError no_static_root), w)
        end
    end.
Proof.
  intros Happ.
  unfold static_url. unfold_monad. rewrite Happ. fold legacy_key.
  destruct (app_config app !! static_root_key) as [root|]; [reflexivity |].
  destruct (app_config app !! legacy_key) as [root|]; reflexivity.
Qed.

Lemma static_url_no_app w path :
  ctx_app (w_context w) = None → static_url path w = (Raised (KeyError "app"), w).
Proof.
  intros Happ. unfold static_url. unfold_monad. by rewrite Happ.
Qed.

(** The loop, run over all the keys of [parts]: it ends normally exactly
    when every value is accepted, and raises the [TypeError] otherwise. *)
Lemma parts_clean_of_returns parts :
  (∀ key val, getitem parts key = Some val → accepted val = true) →
  ∃ pc, parts_clean_of parts = Returned pc
        ∧ ∀ key, pc !! key = str <$> getitem parts key.
Proof.
  intros Hall.
  destruct (clean_loop_returns parts (keys parts) ∅) as (pc & Hrun & Hpc).
  { intros key [val Hget]%keys_getitem. eauto. }
  exists pc. split; [done |]. intros key. rewrite Hpc.
  case_decide as Hin; [done |]. rewrite lookup_empty.
  destruct (getitem parts key) as [val|] eqn:Hget; [| done].
  by apply getitem_Some_keys in Hget.
Qed.

Lemma parts_clean_of_raises parts e :
  parts_clean_of parts = Raised e →
  ∃ key val, e = TypeError key val ∧ getitem parts key = Some val
             ∧ accepted val = false.
Proof.
  intros (key & val & ? & _ & ? & ?)%clean_loop_raises; [eauto | done].
Qed.

Lemma parts_clean_of_rejects parts key val :
  getitem parts key = Some val → accepted val = false →
  ∃ key' val', parts_clean_of parts = Raised (TypeError key' val')
               ∧ getitem parts key' = Some val' ∧ accepted val' = false.
Proof.
  intros Hget Hrej. destruct (parts_clean_of parts) as [pc|e] eqn:Hrun.
  - destruct (clean_loop_returned_inv _ _ _ _ Hrun key) as (val' & Hget' & Hacc).
    { by eapply getitem_Some_keys. }
    congruence.
  - destruct (parts_clean_of_raises _ _ Hrun) as (key' & val' & -> & ? & ?). eauto.
Qed.

(** ** [url_for] *)

(** C1. When every keyword-argument value is a str or an int (an instance of
    [str], or a value whose type is exactly [int]), the parameter map handed
    to the router has exactly the keys of the keyword arguments and binds
    each key to the string form [str val] of its original value. *)
Theorem url_for_parts_stringified w app name query parts resource :
  ctx_app (w_context w) = Some app →
  app_router app !! name = Some resource →
  (∀ key val, getitem parts key = Some val →
              isinstance val Tstr = true ∨ type_is val Tint = true) →
  ∃ pc : gmap string strval,
    dom pc = list_to_set (keys parts)
    ∧ (∀ key val, getitem parts key = Some val → pc !! key = Some (str val))
    ∧ url_for with_query name query parts w
      = (match resource pc with
         | Returned url =>
             Returned (if truthy query
                       then with_query url (default [] query) else url)
         | Raised e => Raised e
         end, w).
Proof.
  intros Happ Hroute Hall.
  destruct (parts_clean_of_returns parts) as (pc & Hrun & Hpc).
  { intros key val Hget. unfold accepted. apply orb_true_iff. eauto. }
  exists pc. split_and!.
  - apply set_eq. intros key.
    rewrite elem_of_dom, elem_of_list_to_set, Hpc, fmap_is_Some. split.
    + intros [val Hget]. by eapply getitem_Some_keys.
    + apply keys_getitem.
  - intros key val Hget. by rewrite Hpc, Hget.
  - by rewrite (url_for_run _ _ _ _ _ Happ), Hrun, Hroute.
Qed.

(** C2 (amended). [url_for] raises a [TypeError] whenever some
    keyword-argument value is neither an instance of [str] (subclasses
    included) nor a value whose type is exactly [int]: its own check raises
    it, naming such a key and value, before the router is consulted and
    whatever [query_] is; no URL is returned and nothing has changed.  When
    every value passes the check, the check raises nothing and whatever the
    resource's [url_for] raises, a [TypeError] included, is propagated as it
    is: a [TypeError] does not tell that a value was invalid. *)
Theorem url_for_TypeError_on_invalid_value w app name query parts :
  ctx_app (w_context w) = Some app →
  ((∃ key val, getitem parts key = Some val
               ∧ isinstance val Tstr = false ∧ type_is val Tint = false) →
   ∃ key val,
     url_for with_query name query parts w = (Raised (TypeError key val), w)
     ∧ is_a (TypeError key val) cls_TypeError = true
     ∧ getitem parts key = Some val
     ∧ isinstance val Tstr = false ∧ type_is val Tint = false
     ∧ ∀ url, (url_for with_query name query parts w).1 ≠ Returned url)
  ∧ ((∀ key val, getitem parts key = Some val →
                 isinstance val Tstr = true ∨ type_is val Tint = true) →
     ∃ pc : gmap string strval,
       parts_clean_of parts = Returned pc
       ∧ ∀ resource (e : exn),
           app_router app !! name = Some resource →
           resource pc = Raised e →
           url_for with_query name query parts w = (Raised e, w)).
Proof.
  intros Happ. rewrite (url_for_run _ _ _ _ _ Happ). split.
  - intros (key & val & Hget & Hrej%accepted_branches).
    destruct (parts_clean_of_rejects _ _ _ Hget Hrej)
      as (key' & val' & -> & Hget' & [? ?]%accepted_branches).
    exists key', val'. split_and!; done.
  - intros Hall. destruct (parts_clean_of_returns parts) as (pc & Hrun & _).
    { intros key val Hget. unfold accepted. apply orb_true_iff. eauto. }
    exists pc. split; [done |]. intros resource e Hroute Hraised.
    unfold Resource in *. by rewrite Hrun, Hroute, Hraised.
Qed.

(** C3. A keyword-argument value that is a [bool] is rejected with the
    [TypeError], although [bool] is a subtype of [int]; when it is the only
    offending value the error names it. *)
Theorem url_for_rejects_bool w app name query parts key (b : bool) :
  ctx_app (w_context w) = Some app →
  getitem parts key = Some (PyBool b) →
  isinstance (PyBool b) Tint = true
  ∧ (∃ key' val',
       (url_for with_query name query parts w).1 = Raised (TypeError key' val'))
  ∧ ((∀ key' val', getitem parts key' = Some val' → accepted val' = false →
                   key' = key) →
     (url_for with_query name query parts w).1 = Raised (TypeError key (PyBool b))).
Proof.
  intros Happ Hget. rewrite (url_for_run _ _ _ _ _ Happ). simpl.
  assert (accepted (PyBool b) = false) as Hrej by done.
  destruct (parts_clean_of_rejects _ _ _ Hget Hrej) as (key' & val' & Hrun & Hget' & Hrej').
  rewrite Hrun. split_and!; [done | eauto |].
  intros Honly. rewrite (Honly _ _ Hget' Hrej') in Hget' |- *. congruence.
Qed.

(** C4. When a [query_] mapping is supplied, the returned URL is the URL the
    route resolved to with that mapping as its query string,
    [url.with_query(query_)].  ([with_query] is the URL library's; for the
    empty mapping the statement needs that giving a URL the empty mapping
    leaves it as it is.) *)
Theorem url_for_query_attached w app name (q : dict string) parts resource pc url :
  ctx_app (w_context w) = Some app →
  app_router app !! name = Some resource →
  parts_clean_of parts = Returned pc →
  resource pc = Returned url →
  (q = [] → with_query url q = url) →
  url_for with_query name (Some q) parts w = (Returned (with_query url q), w).
Proof.
  intros Happ Hroute Hrun Hurl Hempty.
  rewrite (url_for_run _ _ _ _ _ Happ), Hrun, Hroute, Hurl.
  destruct q as [|kv q]; simpl; [by rewrite Hempty | done].
Qed.

(** C9. An empty [query_] mapping is treated as an omitted one: the returned
    URL is exactly the URL the route resolved to, with no query attached. *)
Theorem url_for_empty_query w name parts :
  url_for with_query name (Some []) parts w = url_for with_query name None parts w
  ∧ ∀ app resource pc url,
      ctx_app (w_context w) = Some app →
      app_router app !! name = Some resource →
      parts_clean_of parts = Returned pc →
      resource pc = Returned url →
      url_for with_query name (Some []) parts w = (Returned url, w).
Proof.
  split.
  - destruct (ctx_app (w_context w)) as [app|] eqn:Happ.
    + by rewrite !(url_for_run _ _ _ _ _ Happ).
    + by rewrite !url_for_no_app.
  - intros app resource pc url Happ Hroute Hrun Hurl.
    by rewrite (url_for_run _ _ _ _ _ Happ), Hrun, Hroute, Hurl.
Qed.

(** C10 (amended). A keyword-argument value whose type is a proper subclass
    of [str] is accepted, and the value stored for it in the parameter map
    is what [str()] returns for it.  When the subclass keeps [str.__str__]
    that is a plain str equal to the original value: the subclass is not
    preserved. *)
Theorem url_for_str_subclass parts key val :
  getitem parts key = Some val →
  proper_instance val Tstr = true →
  accepted val = true
  ∧ (∀ key' val', parts_clean_of parts = Raised (TypeError key' val') → key' ≠ key)
  ∧ (∀ pc, parts_clean_of parts = Returned pc →
           pc !! key = Some (str val)
           ∧ (keeps_str val = true →
              is_plain (str val) = true ∧ str_eq (str val) val = true)
           ∧ ∀ w app name query resource,
               ctx_app (w_context w) = Some app →
               app_router app !! name = Some resource →
               (url_for with_query name query parts w).1
               = match resource pc with
                 | Returned url =>
                     Returned (if truthy query
                               then with_query url (default [] query) else url)
                 | Raised e => Raised e
                 end).
Proof.
  intros Hget [Hstr Hproper]%andb_true_iff.
  assert (accepted val = true) as Hacc by (unfold accepted; by rewrite Hstr).
  split_and!; [done | |].
  - intros key' val' (? & ? & [= <- <-] & Hget' & Hrej)%parts_clean_of_raises.
    intros ->. congruence.
  - intros pc Hrun. split_and!.
    + destruct (clean_loop_returns parts (keys parts) ∅) as (pc' & Hrun' & Hpc).
      { by eapply clean_loop_returned_inv. }
      unfold parts_clean_of in Hrun. rewrite Hrun in Hrun'. injection Hrun' as <-.
      rewrite Hpc, decide_True by (by eapply getitem_Some_keys). by rewrite Hget.
    + destruct val as [s|cls [method|] s| | | |]; try done.
      intros _. split; [done |]. unfold str_eq. simpl. by apply bool_decide_eq_true.
    + intros w app name query resource Happ Hroute.
      by rewrite (url_for_run _ _ _ _ _ Happ), Hrun, Hroute.
Qed.

(** ** [static_url] *)

(** C5. Whatever the configured root and the asset path, the returned string
    has exactly one slash where the two are joined: it is the root without
    its trailing slashes, one slash, and the path without its leading
    slashes. *)
Theorem static_url_one_slash w app root path :
  ctx_app (w_context w) = Some app →
  app_config app !! static_root_key = Some root
  ∨ (app_config app !! static_root_key = None
     ∧ app_config app !! legacy_key = Some root) →
  ∃ (r p : string) (n m : nat),
    root = r +:+ slashes n
    ∧ path = slashes m +:+ p
    ∧ ends_with_slash r = false
    ∧ starts_with_slash p = false
    ∧ (static_url path w).1 = Returned (r +:+ "/" +:+ p).
Proof.
  intros Happ Hroot.
  destruct (rstrip_slashes root) as (n & Hr & Hend).
  destruct (lstrip_slashes path) as (m & Hp & Hstart).
  exists (rstrip "/" root), (lstrip "/" path), n, m. split_and!; try done.
  rewrite (static_url_run _ _ _ Happ).
  destruct Hroot as [-> | [-> ->]]; done.
Qed.

(** C6. When the app defines neither the [static_root_key] entry nor the
    legacy ['static_root_url'] entry, [static_url] raises a [RuntimeError]
    and returns no URL. *)
Theorem static_url_unconfigured_raises w app path :
  ctx_app (w_context w) = Some app →
  app_config app !! static_root_key = None →
  app_config app !! legacy_key = None →
  static_url path w = (Raised (RuntimeError no_static_root), w).
Proof.
  intros Happ Hkey Hlegacy. by rewrite (static_url_run _ _ _ Happ), Hkey, Hlegacy.
Qed.

(** C7. When the [static_root_key] entry is absent and the legacy
    ['static_root_url'] entry is present, [static_url] takes the legacy
    value as the root, emits a [DeprecationWarning] and returns the joined
    URL instead of raising. *)
Theorem static_url_legacy_fallback w app root path :
  ctx_app (w_context w) = Some app →
  app_config app !! static_root_key = None →
  app_config app !! legacy_key = Some root →
  static_url path w
  = (Returned (rstrip "/" root +:+ "/" +:+ lstrip "/" path),
     {| w_context := w_context w; w_warnings := deprecation :: w_warnings w |})
  ∧ w_category deprecation = DeprecationWarning.
Proof.
  intros Happ Hkey Hlegacy. by rewrite (static_url_run _ _ _ Happ), Hkey, Hlegacy.
Qed.

(** ** Effects *)

(** C8 (amended). Apart from raising, and apart from the
    [DeprecationWarning] that [static_url] emits when it falls back to the
    legacy entry, the helpers have no effect: [url_for] leaves everything as
    it was, [static_url] leaves the context, the app and its configuration
    as they were, and the outcome of either is the same in any two runs on
    the same context and arguments. *)
Theorem helpers_effects w name query parts path :
  (url_for with_query name query parts w).2 = w
  ∧ w_context (static_url path w).2 = w_context w
  ∧ ((static_url path w).2 = w
     ∨ ((∃ app root, ctx_app (w_context w) = Some app
                     ∧ app_config app !! static_root_key = None
                     ∧ app_config app !! legacy_key = Some root)
        ∧ w_warnings (static_url path w).2 = deprecation :: w_warnings w))
  ∧ ∀ log : list warning,
      let w' := {| w_context := w_context w; w_warnings := log |} in
      (url_for with_query name query parts w').1
      = (url_for with_query name query parts w).1
      ∧ (static_url path w').1 = (static_url path w).1.
Proof.
  destruct (ctx_app (w_context w)) as [app|] eqn:Happ.
  - rewrite (url_for_run _ _ _ _ _ Happ), (static_url_run _ _ _ Happ).
    split_and!; [done | | |].
    + destruct (app_config app !! static_root_key); [done |].
      by destruct (app_config app !! legacy_key).
    + destruct (app_config app !! static_root_key) eqn:Hkey; [by left |].
      destruct (app_config app !! legacy_key) as [root|] eqn:Hlegacy; [| by left].
      right. split; [| done]. by exists app, root.
    + intros log w'.
      assert (ctx_app (w_context w') = Some app) as Happ' by done.
      rewrite (url_for_run _ _ _ _ _ Happ'), (static_url_run _ _ _ Happ').
      split; [done |]. destruct (app_config app !! static_root_key); [done |].
      by destruct (app_config app !! legacy_key).
  - rewrite (url_for_no_app _ _ _ _ Happ), (static_url_no_app _ _ Happ).
    split_and!; [done | done | by left |].
    intros log w'. assert (ctx_app (w_context w') = None) as Happ' by done.
    by rewrite (url_for_no_app _ _ _ _ Happ'), (static_url_no_app _ _ Happ').
Qed.

End Properties.

(** ** The properties on the sample application *)

Lemma url_for_parts_stringified_witness :
  ∃ pc : gmap string strval,
    dom pc = list_to_set (keys [("id", PyInt 123); ("tab", Sample.Markup_7)])
    ∧ (∀ key val,
         getitem [("id", PyInt 123); ("tab", Sample.Markup_7)] key = Some val →
         pc !! key = Some (str val))
    ∧ url_for Sample.with_query "item-details" (Some [("active", "true")])
        [("id", PyInt 123); ("tab", Sample.Markup_7)] Sample.current
      = (match Sample.item_details pc with
         | Returned url => Returned (Sample.with_query url [("active", "true")])
         | Raised e => Raised e
         end, Sample.current).
Proof.
  apply (url_for_parts_stringified Sample.url Sample.with_query Sample.current
           (Sample.app_with (<[static_root_key := "/static/"]> ∅))
           "item-details" (Some [("active", "true")])
           [("id", PyInt 123); ("tab", Sample.Markup_7)] Sample.item_details).
  - reflexivity.
  - reflexivity.
  - intros key val. simpl. repeat case_decide.
    + intros [= <-]. right. reflexivity.
    + intros [= <-]. left. reflexivity.
    + discriminate.
Defined.

Lemma url_for_TypeError_on_invalid_value_witness :
  (∃ key val,
     url_for Sample.with_query "nowhere" (Some [("active", "true")])
       [("id", PyInt 1); ("flag", PyNone)] Sample.current
     = (Raised (TypeError key val), Sample.current)
     ∧ is_a (TypeError key val) cls_TypeError = true
     ∧ getitem [("id", PyInt 1); ("flag", PyNone)] key = Some val
     ∧ isinstance val Tstr = false ∧ type_is val Tint = false
     ∧ ∀ url,
         (url_for Sample.with_query "nowhere" (Some [("active", "true")])
            [("id", PyInt 1); ("flag", PyNone)] Sample.current).1
         ≠ Returned url).
Proof.
  apply (proj1 (url_for_TypeError_on_invalid_value Sample.url Sample.with_query
                  Sample.current
                  (Sample.app_with (<[static_root_key := "/static/"]> ∅))
                  "nowhere" (Some [("active", "true")])
                  [("id", PyInt 1); ("flag", PyNone)] eq_refl)).
  exists "flag", PyNone. split_and!; reflexivity.
Defined.

Lemma url_for_rejects_bool_witness :
  (url_for Sample.with_query "item-details" None
     [("id", PyInt 1); ("active", PyBool true)] Sample.current).1
  = Raised (TypeError "active" (PyBool true)).
Proof.
  apply (url_for_rejects_bool Sample.url Sample.with_query Sample.current
           (Sample.app_with (<[static_root_key := "/static/"]> ∅))
           "item-details" None [("id", PyInt 1); ("active", PyBool true)]
           "active" true eq_refl eq_refl).
  intros key val. simpl. repeat case_decide.
  - intros [= <-]. discriminate.
  - intros [= <-]. done.
  - discriminate.
Defined.

Lemma url_for_query_attached_witness :
  url_for Sample.with_query "item-details" (Some [("active", "true")])
    [("id", PyInt 123)] Sample.current
  = (Returned {| Sample.path := "/items/123"; Sample.query := [("active", "true")] |},
     Sample.current)
  ∧ url_for Sample.with_query "the-view-name" (Some []) [] Sample.current
    = (Returned {| Sample.path := "/path/to/view"; Sample.query := [] |},
       Sample.current).
Proof.
  split.
  - apply (url_for_query_attached Sample.url Sample.with_query Sample.current
             (Sample.app_with (<[static_root_key := "/static/"]> ∅))
             "item-details" [("active", "true")] [("id", PyInt 123)]
             Sample.item_details {["id" := plain "123"]}
             {| Sample.path := "/items/123"; Sample.query := [] |}).
    + reflexivity.
    + reflexivity.
    + reflexivity.
    + reflexivity.
    + discriminate.
  - apply (url_for_query_attached Sample.url Sample.with_query Sample.current
             (Sample.app_with (<[static_root_key := "/static/"]> ∅))
             "the-view-name" [] [] Sample.the_view ∅
             {| Sample.path := "/path/to/view"; Sample.query := [] |}).
    + reflexivity.
    + reflexivity.
    + reflexivity.
    + reflexivity.
    + reflexivity.
Defined.

Lemma url_for_str_subclass_witness :
  accepted Sample.Markup_7 = true
  ∧ (∀ key' val',
       parts_clean_of [("id", Sample.Markup_7)] = Raised (TypeError key' val') →
       key' ≠ "id")
  ∧ (∀ pc, parts_clean_of [("id", Sample.Markup_7)] = Returned pc →
           pc !! "id" = Some (plain "7")
           ∧ (keeps_str Sample.Markup_7 = true →
              is_plain (plain "7") = true ∧ str_eq (plain "7") Sample.Markup_7 = true)
           ∧ ∀ w app name query resource,
               ctx_app (w_context w) = Some app →
               app_router app !! name = Some resource →
               (url_for Sample.with_query name query [("id", Sample.Markup_7)] w).1
               = match resource pc with
                 | Returned url =>
                     Returned (if truthy query
                               then Sample.with_query url (default [] query) else url)
                 | Raised e => Raised e
                 end).
Proof.
  apply (url_for_str_subclass Sample.url Sample.with_query
           [("id", Sample.Markup_7)] "id" Sample.Markup_7).
  - reflexivity.
  - reflexivity.
Defined.

Lemma static_url_one_slash_witness :
  ∃ (r p : string) (n m : nat),
    "/static//" = r +:+ slashes n
    ∧ "//css/styles.css" = slashes m +:+ p
    ∧ ends_with_slash r = false
    ∧ starts_with_slash p = false
    ∧ (static_url "//css/styles.css"
         (Sample.world_of (Sample.app_with (<[static_root_key := "/static//"]> ∅)))).1
      = Returned (r +:+ "/" +:+ p).
Proof.
  apply (static_url_one_slash Sample.url
           (Sample.world_of (Sample.app_with (<[static_root_key := "/static//"]> ∅)))
           (Sample.app_with (<[static_root_key := "/static//"]> ∅))
           "/static//" "//css/styles.css").
  - reflexivity.
  - left. reflexivity.
Defined.

Lemma static_url_unconfigured_raises_witness :
  static_url "styles.css" Sample.unconfigured
  = (Raised (RuntimeError no_static_root), Sample.unconfigured).
Proof.
  apply (static_url_unconfigured_raises Sample.url Sample.unconfigured
           (Sample.app_with ∅) "styles.css").
  - reflexivity.
  - reflexivity.
  - reflexivity.
Defined.

Lemma static_url_legacy_fallback_witness :
  static_url "/styles.css" Sample.legacy
  = (Returned (rstrip "/" "http://mycdn.example.com//" +:+ "/" +:+ lstrip "/" "/styles.css"),
     {| w_context := w_context Sample.legacy;
        w_warnings := deprecation :: w_warnings Sample.legacy |})
  ∧ w_category deprecation = DeprecationWarning.
Proof.
  apply (static_url_legacy_fallback Sample.url Sample.legacy
           (Sample.app_with (<[legacy_key := "http://mycdn.example.com//"]> ∅))
           "http://mycdn.example.com//" "/styles.css").
  - reflexivity.
  - reflexivity.
  - reflexivity.
Defined.

(** ** Where the stated properties stop *)

(** C8, as stated, fails: on the legacy path [static_url] returns normally
    (it does not raise) and yet leaves a warning behind. *)
Lemma static_url_warning_is_effect :
  (static_url "styles.css" Sample.legacy).1
  = Returned "http://mycdn.example.com/styles.css"
  ∧ (static_url "styles.css" Sample.legacy).2 ≠ Sample.legacy
  ∧ w_warnings (static_url "styles.css" Sample.legacy).2 = [deprecation].
Proof.
  split_and!.
  - vm_compute. reflexivity.
  - intros Heq. apply (f_equal w_warnings) in Heq. vm_compute in Heq. discriminate.
  - vm_compute. reflexivity.
Qed.

(** C2, as stated, fails: every value is an int and the call still raises a
    [TypeError], the one the plain route's own [url_for] raises when it is
    given a keyword argument. *)
Lemma url_for_TypeError_without_invalid_value :
  (∀ key val, getitem [("id", PyInt 1)] key = Some val →
              isinstance val Tstr = true ∨ type_is val Tint = true)
  ∧ (url_for Sample.with_query "the-view-name" None [("id", PyInt 1)]
       Sample.current).1
    = Raised (Exn cls_TypeError
                (Message "url_for() got an unexpected keyword argument 'id'"))
  ∧ is_a (Exn cls_TypeError
            (Message "url_for() got an unexpected keyword argument 'id'"))
         cls_TypeError = true.
Proof.
  split_and!.
  - intros key val. simpl. case_decide; [| discriminate].
    intros [= <-]. right. reflexivity.
  - vm_compute. reflexivity.
  - reflexivity.
Qed.

(** C10, as stated, fails twice.  For a subclass of [str] whose [__str__]
    returns other text, the stored value is a plain str that is not equal to
    the original value; for one whose [__str__] returns [self], the stored
    value is not a plain str: the subclass is preserved. *)
Lemma url_for_str_subclass_not_equal :
  (proper_instance Sample.Color_RED Tstr = true
   ∧ text Sample.Color_RED = Some "red"
   ∧ parts_clean_of [("id", Sample.Color_RED)]
     = Returned {["id" := plain "Color.RED"]}
   ∧ str_eq (plain "Color.RED") Sample.Color_RED = false
   ∧ (url_for Sample.with_query "item-details" None [("id", Sample.Color_RED)]
        Sample.current).1
     = Returned {| Sample.path := "/items/Color.RED"; Sample.query := [] |})
  ∧ (proper_instance Sample.Tag_a Tstr = true
     ∧ parts_clean_of [("id", Sample.Tag_a)]
       = Returned {["id" := {| sv_class := Some "Tag"; sv_text := "a" |}]}
     ∧ is_plain {| sv_class := Some "Tag"; sv_text := "a" |} = false).
Proof.
  split_and!; vm_compute; reflexivity.
Qed.


(** ** Further properties of the helpers *)

(** *** Slashes *)

Lemma rstrip_clean (s : string) : ends_with_slash s = false → rstrip "/" s = s.
Proof.
  induction s as [|c s IH]; [done |]. rewrite rstrip_cons. intros Hend.
  destruct s as [|d s].
  - simpl in *. rewrite decide_False; [done |].
    intros [_ ->]. by rewrite bool_decide_eq_true_2 in Hend.
  - rewrite IH by done. by rewrite decide_False by (by intros [? _]).
Qed.

Lemma lstrip_clean (s : string) : starts_with_slash s = false → lstrip "/" s = s.
Proof.
  destruct s as [|c s]; [done |]. cbn [lstrip starts_with_slash].
  rewrite char_in_slash. by intros ->.
Qed.

Lemma lstrip_slashes_app (m : nat) (s : string) :
  lstrip "/" (slashes m +:+ s) = lstrip "/" s.
Proof. induction m as [|m IH]; [done |]. exact IH. Qed.

Lemma lstrip_only_slashes (n : nat) : lstrip "/" (slashes n) = "".
Proof. induction n as [|n IH]; [done |]. exact IH. Qed.

Lemma rstrip_only_slashes (n : nat) : rstrip "/" (slashes n) = "".
Proof.
  induction n as [|n IH]; [done |].
  cbn [slashes]. rewrite rstrip_cons, IH. by rewrite decide_True.
Qed.

Lemma rstrip_app_slashes (s : string) (n : nat) :
  rstrip "/" (s +:+ slashes n) = rstrip "/" s.
Proof.
  induction s as [|c s IH].
  - apply rstrip_only_slashes.
  - change (String c s +:+ slashes n) with (String c (s +:+ slashes n)).
    by rewrite !rstrip_cons, IH.
Qed.

(** *** Dicts *)

Lemma getitem_elem_of {A} (d : dict A) (key : string) (v : A) :
  getitem d key = Some v → (key, v) ∈ d.
Proof.
  induction d as [|[k x] d IH]; [done |]. simpl. case_decide as Hk.
  - intros [= ->]. subst. left.
  - intros Hget. right. by apply IH.
Qed.

Lemma getitem_None_keys {A} (d : dict A) (key : string) :
  getitem d key = None ↔ key ∉ keys d.
Proof.
  split.
  - intros Hnone [v Hget]%keys_getitem. congruence.
  - intros Hnin. destruct (getitem d key) as [v|] eqn:Hget; [| done].
    by apply getitem_Some_keys in Hget.
Qed.


Lemma getitem_app {A} (d1 d2 : dict A) (key : string) :
  getitem ((d1 ++ d2)%list) key
  = match getitem d1 key with Some v => Some v | None => getitem d2 key end.
Proof.
  induction d1 as [|[k x] d1 IH]; [done |]. simpl. by case_decide.
Qed.


Lemma getitem_stringified (parts : dict pyval) (key : string) :
  getitem (stringified parts) key
  = (λ val, PyStr (sv_text (str val))) <$> getitem parts key.
Proof.
  induction parts as [|[k x] parts IH]; [done |].
  unfold stringified in *. simpl. by case_decide.
Qed.

(** *** The loop, once more *)

Lemma clean_loop_prefix (parts : dict pyval) (todo1 todo2 : list string)
    (acc : gmap string strval) :
  (∀ key, key ∈ todo1 → ∃ val, getitem parts key = Some val ∧ accepted val = true) →
  ∃ acc', clean_loop parts (todo1 ++ todo2)%list acc = clean_loop parts todo2 acc'.
Proof.
  revert acc. induction todo1 as [|k todo1 IH]; intros acc Hall; [by exists acc |].
  destruct (Hall k) as (val & Hget & Hacc); [left |].
  change ((k :: todo1) ++ todo2)%list with (k :: (todo1 ++ todo2))%list.
  rewrite clean_loop_step, Hget, Hacc. apply IH.
  intros key Hin. apply Hall. by right.
Qed.

Lemma parts_clean_of_accepts (parts : dict pyval) (pc : gmap string strval) :
  parts_clean_of parts = Returned pc →
  ∀ key val, getitem parts key = Some val → accepted val = true.
Proof.
  intros Hrun key val Hget.
  destruct (clean_loop_returned_inv _ _ _ _ Hrun key) as (val' & Hget' & Hacc).
  { by eapply getitem_Some_keys. }
  congruence.
Qed.

Lemma parts_clean_of_lookup (parts : dict pyval) (pc : gmap string strval) :
  parts_clean_of parts = Returned pc →
  ∀ key, pc !! key = str <$> getitem parts key.
Proof.
  intros Hrun.
  destruct (parts_clean_of_returns parts) as (pc' & Hrun' & Hpc).
  { by eapply parts_clean_of_accepts. }
  congruence.
Qed.

(** Two sets of keyword arguments that bind the same keys to values with the
    same string form are cleaned to the same map. *)
Lemma parts_clean_of_ext (parts parts' : dict pyval) (pc : gmap string strval) :
  parts_clean_of parts = Returned pc →
  (∀ key, str <$> getitem parts' key = str <$> getitem parts key) →
  (∀ key val, getitem parts' key = Some val → accepted val = true) →
  parts_clean_of parts' = Returned pc.
Proof.
  intros Hrun Hsame Hall.
  destruct (parts_clean_of_returns parts' Hall) as (pc' & Hrun' & Hpc').
  rewrite Hrun'. f_equal. apply map_eq. intros key.
  by rewrite Hpc', Hsame, (parts_clean_of_lookup _ _ Hrun).
Qed.

Section Further.

Variable URL : Type.
Variable with_query : URL → dict string → URL.

Implicit Types (w : World URL) (app : Application URL).
Implicit Types (parts : dict pyval) (query : option (dict string)).
Implicit Types (name key path root : string) (val : pyval).

(** [url_for] looks at its keyword arguments only through the cleaned map. *)
Lemma url_for_congr w name query parts parts' :
  parts_clean_of parts' = parts_clean_of parts →
  url_for with_query name query parts' w = url_for with_query name query parts w.
Proof.
  intros Hsame. destruct (ctx_app (w_context w)) as [app|] eqn:Happ.
  - by rewrite !(url_for_run _ _ _ _ _ _ _ Happ), Hsame.
  - by rewrite !url_for_no_app.
Qed.

(** X1. The [TypeError] names the first offending keyword argument: when the
    arguments before [key] are all accepted and the value of [key] is not,
    the call raises [TypeError] for exactly that key and value, whatever comes
    after it, whatever the route and whatever [query_]; nothing has changed. *)
Theorem url_for_first_offender w app name query (before after : dict pyval) key val :
  ctx_app (w_context w) = Some app →
  key ∉ keys before →
  (∀ k v, (k, v) ∈ before → accepted v = true) →
  accepted val = false →
  url_for with_query name query (before ++ (key, val) :: after)%list w
  = (Raised (TypeError key val), w).
Proof.
  intros Happ Hfresh Hbefore Hrej.
  rewrite (url_for_run _ _ _ _ _ _ _ Happ).
  set (parts := (before ++ (key, val) :: after)%list).
  assert (getitem parts key = Some val) as Hget.
  { unfold parts. rewrite getitem_app.
    apply getitem_None_keys in Hfresh as ->. simpl. by rewrite decide_True. }
  assert (keys parts = (keys before ++ key :: keys after)%list) as Hkeys.
  { unfold parts, keys. by rewrite fmap_app. }
  destruct (clean_loop_prefix parts (keys before) (key :: keys after) ∅)
    as (acc' & Hrun).
  { intros k [v Hk]%keys_getitem. exists v. split.
    - unfold parts. by rewrite getitem_app, Hk.
    - apply (Hbefore k). by apply getitem_elem_of. }
  unfold parts_clean_of. by rewrite Hkeys, Hrun, clean_loop_step, Hget, Hrej.
Qed.

(** X2. An instance of any proper subclass of [int] (not only [bool]) is
    refused: a call that passes one raises the [TypeError]. *)
Theorem url_for_rejects_int_subclass w app name query parts key val :
  ctx_app (w_context w) = Some app →
  getitem parts key = Some val →
  proper_instance val Tint = true →
  accepted val = false
  ∧ ∃ key' val',
      url_for with_query name query parts w = (Raised (TypeError key' val'), w).
Proof.
  intros Happ Hget Hsub.
  assert (accepted val = false) as Hrej.
  { destruct val as [s|cls method s|n|b|cls n|]; try done. }
  split; [done |].
  destruct (parts_clean_of_rejects _ _ _ Hget Hrej) as (key' & val' & Hrun & _).
  exists key', val'. by rewrite (url_for_run _ _ _ _ _ _ _ Happ), Hrun.
Qed.

(** X4. With an app and accepted values only, a route name the router does
    not know raises [KeyError] of that name, with or without [query_]. *)
Theorem url_for_unknown_route_raises w app name query parts :
  ctx_app (w_context w) = Some app →
  (∀ key val, getitem parts key = Some val → accepted val = true) →
  app_router app !! name = None →
  url_for with_query name query parts w = (Raised (KeyError name), w).
Proof.
  intros Happ Hall Hroute.
  destruct (parts_clean_of_returns parts Hall) as (pc & Hrun & _).
  rewrite (url_for_run _ _ _ _ _ _ _ Happ), Hrun.
  unfold Resource in *. by rewrite Hroute.
Qed.


(** X6. Turning the values into plain strs before the call changes nothing
    when plain strs are what the loop stores: [url_for] cannot tell [id=5]
    from [id='5'].  The call on the stringified arguments then builds the
    same map and has the same outcome. *)
Theorem url_for_stringified w name query parts pc :
  parts_clean_of parts = Returned pc →
  (∀ key v, pc !! key = Some v → is_plain v = true) →
  parts_clean_of (stringified parts) = Returned pc
  ∧ url_for with_query name query (stringified parts) w
    = url_for with_query name query parts w.
Proof.
  intros Hrun Hplain.
  assert (parts_clean_of (stringified parts) = Returned pc) as Hrun'.
  { apply (parts_clean_of_ext parts); [done | |].
    - intros key. rewrite getitem_stringified.
      destruct (getitem parts key) as [val|] eqn:Hget; [| done]. simpl. f_equal.
      assert (is_plain (str val) = true) as Hval.
      { apply (Hplain key). by rewrite (parts_clean_of_lookup _ _ Hrun), Hget. }
      destruct (str val) as [[cls|] s]; done.
    - intros key val. rewrite getitem_stringified.
      destruct (getitem parts key); [| done]. by intros [= <-]. }
  split; [done |]. apply url_for_congr. congruence.
Qed.

(** Without the condition on the stored values the two calls can differ:
    for [Tag_a], whose [__str__] returns [self], the loop stores the [Tag]
    instance, and the plain str on the stringified arguments. *)
Example url_for_stringified_needs_plain :
  parts_clean_of [("id", Sample.Tag_a)]
  = Returned {["id" := {| sv_class := Some "Tag"; sv_text := "a" |}]}
  ∧ parts_clean_of (stringified [("id", Sample.Tag_a)])
    = Returned {["id" := plain "a"]}.
Proof. split; vm_compute; reflexivity. Qed.

(** X7. Different ints are never confused: two calls that differ in the int
    passed for one key hand different parameter maps to the router. *)
Theorem url_for_int_distinct (before after : dict pyval) key (n m : Z)
    (pc pc' : gmap string strval) :
  key ∉ keys before →
  parts_clean_of (before ++ (key, PyInt n) :: after)%list = Returned pc →
  parts_clean_of (before ++ (key, PyInt m) :: after)%list = Returned pc' →
  pc !! key = Some (plain (pretty n))
  ∧ pc' !! key = Some (plain (pretty m))
  ∧ (pc = pc' → n = m).
Proof.
  intros Hfresh Hrun Hrun'.
  assert (∀ k : Z, getitem (before ++ (key, PyInt k) :: after)%list key
                   = Some (PyInt k)) as Hget.
  { intros k. rewrite getitem_app.
    apply getitem_None_keys in Hfresh as ->. simpl. by rewrite decide_True. }
  assert (pc !! key = Some (plain (pretty n))) as Hn
    by (by rewrite (parts_clean_of_lookup _ _ Hrun), Hget).
  assert (pc' !! key = Some (plain (pretty m))) as Hm
    by (by rewrite (parts_clean_of_lookup _ _ Hrun'), Hget).
  split_and!; [done | done |].
  intros ->. rewrite Hn in Hm. injection Hm as Hm. by apply (inj pretty).
Qed.

(** The URL [static_url] returns for a root found under either key. *)
Lemma static_url_returns w app root path :
  ctx_app (w_context w) = Some app →
  app_config app !! static_root_key = Some root
  ∨ (app_config app !! static_root_key = None
     ∧ app_config app !! legacy_key = Some root) →
  (static_url path w).1 = Returned (rstrip "/" root +:+ "/" +:+ lstrip "/" path).
Proof.
  intros Happ Hroot. rewrite (static_url_run _ _ _ _ Happ).
  by destruct Hroot as [-> | [-> ->]].
Qed.

(** X8. The [static_root_key] entry wins over the legacy entry: when it is
    set, the legacy entry is not looked at, the URL is built from the
    [static_root_key] value, and no warning is emitted. *)
Theorem static_url_prefers_static_root_key w app root path :
  ctx_app (w_context w) = Some app →
  app_config app !! static_root_key = Some root →
  static_url path w
  = (Returned (rstrip "/" root +:+ "/" +:+ lstrip "/" path), w).
Proof.
  intros Happ Hkey. by rewrite (static_url_run _ _ _ _ Happ), Hkey.
Qed.

(** X9. What [static_url] can raise: [KeyError('app')] for a context without
    app, and the [RuntimeError] when the app has neither entry.  The
    [KeyError]s of the two configuration lookups never escape, and it raises
    nothing else. *)
Theorem static_url_raises w path (e : exn) :
  (static_url path w).1 = Raised e →
  (e = KeyError "app" ∧ ctx_app (w_context w) = None)
  ∨ (e = RuntimeError no_static_root
     ∧ ∃ app, ctx_app (w_context w) = Some app
              ∧ app_config app !! static_root_key = None
              ∧ app_config app !! legacy_key = None).
Proof.
  destruct (ctx_app (w_context w)) as [app|] eqn:Happ.
  - rewrite (static_url_run _ _ _ _ Happ).
    destruct (app_config app !! static_root_key) eqn:Hkey; [done |].
    destruct (app_config app !! legacy_key) eqn:Hlegacy; [done |].
    intros [= <-]. right. split; [done |]. by exists app.
  - rewrite static_url_no_app by done. intros [= <-]. by left.
Qed.

(** X10. Extra slashes at the join are immaterial: a root with more trailing
    slashes and a path with more leading slashes give the same URL. *)
Theorem static_url_extra_slashes w w' app app' root path (n m : nat) :
  ctx_app (w_context w) = Some app →
  ctx_app (w_context w') = Some app' →
  app_config app !! static_root_key = Some root →
  app_config app' !! static_root_key = Some (root +:+ slashes n) →
  (static_url (slashes m +:+ path) w').1 = (static_url path w).1.
Proof.
  intros Happ Happ' Hroot Hroot'.
  rewrite (static_url_returns w app root path) by eauto.
  rewrite (static_url_returns w' app' (root +:+ slashes n) (slashes m +:+ path))
    by eauto.
  by rewrite rstrip_app_slashes, lstrip_slashes_app.
Qed.

(** X11. Only the two ends at the join are trimmed: a root that does not end
    with a slash and a path that does not start with one are joined as they
    are, slashes inside them included. *)
Theorem static_url_clean_join w app root path :
  ctx_app (w_context w) = Some app →
  app_config app !! static_root_key = Some root
  ∨ (app_config app !! static_root_key = None
     ∧ app_config app !! legacy_key = Some root) →
  ends_with_slash root = false →
  starts_with_slash path = false →
  (static_url path w).1 = Returned (root +:+ "/" +:+ path).
Proof.
  intros Happ Hroot Hend Hstart.
  by rewrite (static_url_returns w app root path), rstrip_clean, lstrip_clean.
Qed.

(** X12. The degenerate ends: a root that is empty or made of slashes only is
    not taken as missing and gives a URL that starts at the one joining
    slash; a path that is empty or made of slashes only gives the trimmed
    root followed by the joining slash. *)
Theorem static_url_degenerate w app root path (n : nat) :
  ctx_app (w_context w) = Some app →
  app_config app !! static_root_key = Some root
  ∨ (app_config app !! static_root_key = None
     ∧ app_config app !! legacy_key = Some root) →
  (root = slashes n →
   (static_url path w).1 = Returned ("/" +:+ lstrip "/" path))
  ∧ (path = slashes n →
     (static_url path w).1 = Returned (rstrip "/" root +:+ "/")).
Proof.
  intros Happ Hroot. rewrite (static_url_returns w app root path) by done.
  split; intros ->.
  - by rewrite rstrip_only_slashes.
  - by rewrite lstrip_only_slashes.
Qed.

(** X13. The fallback warns on every call: with only the legacy entry, two
    calls in a row return both URLs and leave two deprecation warnings; the
    first call does not change what the second one does. *)
Theorem static_url_twice_legacy w app root (path1 path2 : string) :
  ctx_app (w_context w) = Some app →
  app_config app !! static_root_key = None →
  app_config app !! legacy_key = Some root →
  (url1 ← static_url path1; url2 ← static_url path2; mret (url1, url2)) w
  = (Returned (rstrip "/" root +:+ "/" +:+ lstrip "/" path1,
               rstrip "/" root +:+ "/" +:+ lstrip "/" path2),
     {| w_context := w_context w;
        w_warnings := deprecation :: deprecation :: w_warnings w |}).
Proof.
  intros Happ Hkey Hlegacy.
  unfold mbind, M_bind, bind at 1.
  rewrite (static_url_run _ _ _ _ Happ), Hkey, Hlegacy.
  unfold bind, mret, M_ret, ret.
  set (w1 := {| w_context := w_context w;
                w_warnings := deprecation :: w_warnings w |}).
  assert (ctx_app (w_context w1) = Some app) as Happ1 by done.
  by rewrite (static_url_run _ _ _ _ Happ1), Hkey, Hlegacy.
Qed.

End Further.

(** *** The further properties on the sample application *)

Lemma url_for_first_offender_witness :
  url_for Sample.with_query "item-details" (Some [("active", "true")])
    ([("id", PyInt 1)] ++ ("flag", PyBool true) :: [("tab", PyNone)])%list
    Sample.current
  = (Raised (TypeError "flag" (PyBool true)), Sample.current).
Proof.
  apply (url_for_first_offender Sample.url Sample.with_query Sample.current
           (Sample.app_with (<[static_root_key := "/static/"]> ∅))
           "item-details" (Some [("active", "true")])
           [("id", PyInt 1)] [("tab", PyNone)] "flag" (PyBool true)).
  - reflexivity.
  - apply (bool_decide_unpack _). vm_compute. reflexivity.
  - intros k v [[= -> ->]|Hin%elem_of_nil]%elem_of_cons; [reflexivity | done].
  - reflexivity.
Defined.

(** [class Status(int)], as an [IntEnum] would be. *)
Lemma url_for_rejects_int_subclass_witness :
  accepted (PyIntSub "Status" 2) = false
  ∧ ∃ key' val',
      url_for Sample.with_query "item-details" None
        [("id", PyIntSub "Status" 2)] Sample.current
      = (Raised (TypeError key' val'), Sample.current).
Proof.
  apply (url_for_rejects_int_subclass Sample.url Sample.with_query Sample.current
           (Sample.app_with (<[static_root_key := "/static/"]> ∅))
           "item-details" None [("id", PyIntSub "Status" 2)] "id"
           (PyIntSub "Status" 2)).
  - reflexivity.
  - reflexivity.
  - reflexivity.
Defined.

Lemma url_for_unknown_route_raises_witness :
  url_for Sample.with_query "nowhere" (Some [("active", "true")])
    [("id", PyInt 1)] Sample.current
  = (Raised (KeyError "nowhere"), Sample.current).
Proof.
  apply (url_for_unknown_route_raises Sample.url Sample.with_query Sample.current
           (Sample.app_with (<[static_root_key := "/static/"]> ∅))
           "nowhere" (Some [("active", "true")]) [("id", PyInt 1)]).
  - reflexivity.
  - intros key val. simpl. case_decide; [| discriminate].
    intros [= <-]. reflexivity.
  - reflexivity.
Defined.


Lemma url_for_stringified_witness :
  parts_clean_of (stringified [("id", PyInt 5); ("tab", Sample.Color_RED)])
  = Returned (<["tab" := plain "Color.RED"]> (<["id" := plain "5"]> ∅))
  ∧ url_for Sample.with_query "item-details" None
      (stringified [("id", PyInt 5); ("tab", Sample.Color_RED)]) Sample.current
    = url_for Sample.with_query "item-details" None
        [("id", PyInt 5); ("tab", Sample.Color_RED)] Sample.current.
Proof.
  apply (url_for_stringified Sample.url Sample.with_query Sample.current
           "item-details" None [("id", PyInt 5); ("tab", Sample.Color_RED)]).
  - reflexivity.
  - intros key v.
    destruct (decide (key = "tab")) as [->|Htab];
      [| destruct (decide (key = "id")) as [->|Hid]].
    + rewrite lookup_insert_eq. by intros [= <-].
    + rewrite lookup_insert_ne, lookup_insert_eq by done. by intros [= <-].
    + rewrite !lookup_insert_ne, lookup_empty by done. discriminate.
Defined.

Lemma url_for_int_distinct_witness :
  ({["id" := plain "7"]} : gmap string strval) !! "id" = Some (plain (pretty 7%Z))
  ∧ ({["id" := plain "-7"]} : gmap string strval) !! "id"
    = Some (plain (pretty (-7)%Z))
  ∧ (({["id" := plain "7"]} : gmap string strval) = {["id" := plain "-7"]} →
     7%Z = (-7)%Z).
Proof.
  apply (url_for_int_distinct [] [] "id" 7 (-7)).
  - apply not_elem_of_nil.
  - reflexivity.
  - reflexivity.
Defined.

Lemma static_url_prefers_static_root_key_witness :
  static_url "styles.css"
    (Sample.world_of (Sample.app_with
       (<[static_root_key := "/static/"]> (<[legacy_key := "/old/"]> ∅))))
  = (Returned (rstrip "/" "/static/" +:+ "/" +:+ lstrip "/" "styles.css"),
     Sample.world_of (Sample.app_with
       (<[static_root_key := "/static/"]> (<[legacy_key := "/old/"]> ∅)))).
Proof.
  apply (static_url_prefers_static_root_key Sample.url _
           (Sample.app_with
              (<[static_root_key := "/static/"]> (<[legacy_key := "/old/"]> ∅)))).
  - reflexivity.
  - reflexivity.
Defined.

Lemma static_url_raises_witness :
  (RuntimeError no_static_root = KeyError "app"
   ∧ ctx_app (w_context Sample.unconfigured) = None)
  ∨ (RuntimeError no_static_root = RuntimeError no_static_root
     ∧ ∃ app, ctx_app (w_context Sample.unconfigured) = Some app
              ∧ app_config app !! static_root_key = None
              ∧ app_config app !! legacy_key = None).
Proof.
  apply (static_url_raises Sample.url Sample.unconfigured "styles.css").
  vm_compute. reflexivity.
Defined.

Lemma static_url_extra_slashes_witness :
  (static_url (slashes 2 +:+ "css/styles.css")
     (Sample.world_of (Sample.app_with
        (<[static_root_key := "/static" +:+ slashes 3]> ∅)))).1
  = (static_url "css/styles.css"
       (Sample.world_of (Sample.app_with (<[static_root_key := "/static"]> ∅)))).1.
Proof.
  apply (static_url_extra_slashes Sample.url
           (Sample.world_of (Sample.app_with (<[static_root_key := "/static"]> ∅)))
           (Sample.world_of (Sample.app_with
              (<[static_root_key := "/static" +:+ slashes 3]> ∅)))
           (Sample.app_with (<[static_root_key := "/static"]> ∅))
           (Sample.app_with (<[static_root_key := "/static" +:+ slashes 3]> ∅))
           "/static" "css/styles.css" 3 2).
  - reflexivity.
  - reflexivity.
  - reflexivity.
  - reflexivity.
Defined.

Lemma static_url_clean_join_witness :
  (static_url "img//logo.png"
     (Sample.world_of (Sample.app_with
        (<[static_root_key := "http://mycdn.example.com"]> ∅)))).1
  = Returned ("http://mycdn.example.com" +:+ "/" +:+ "img//logo.png").
Proof.
  apply (static_url_clean_join Sample.url _
           (Sample.app_with (<[static_root_key := "http://mycdn.example.com"]> ∅))).
  - reflexivity.
  - left. reflexivity.
  - reflexivity.
  - reflexivity.
Defined.

Lemma static_url_degenerate_witness :
  ("//" = slashes 2 →
   (static_url "//"
      (Sample.world_of (Sample.app_with (<[static_root_key := "//"]> ∅)))).1
   = Returned ("/" +:+ lstrip "/" "//"))
  ∧ ("//" = slashes 2 →
     (static_url "//"
        (Sample.world_of (Sample.app_with (<[static_root_key := "//"]> ∅)))).1
     = Returned (rstrip "/" "//" +:+ "/")).
Proof.
  apply (static_url_degenerate Sample.url _
           (Sample.app_with (<[static_root_key := "//"]> ∅)) "//" "//" 2).
  - reflexivity.
  - left. reflexivity.
Defined.

Lemma static_url_twice_legacy_witness :
  (url1 ← static_url "a.css"; url2 ← static_url "/b.css"; mret (url1, url2))
    Sample.legacy
  = (Returned (rstrip "/" "http://mycdn.example.com//" +:+ "/" +:+ lstrip "/" "a.css",
               rstrip "/" "http://mycdn.example.com//" +:+ "/" +:+ lstrip "/" "/b.css"),
     {| w_context := w_context Sample.legacy;
        w_warnings := deprecation :: deprecation :: w_warnings Sample.legacy |}).
Proof.
  apply (static_url_twice_legacy Sample.url Sample.legacy
           (Sample.app_with (<[legacy_key := "http://mycdn.example.com//"]> ∅))).
  - reflexivity.
  - reflexivity.
  - reflexivity.
Defined.
